(** * chessOS backend: a shallow embedding of the service skeleton

    The backend is a FastAPI application made of five small modules:

    - [app/core/config.py]               the frozen [Settings] dataclass and
                                         the process-wide [settings] object;
    - [app/services/stockfish/engine.py] [EngineStatus], [get_engine_status];
    - [app/schemas/analysis.py]          the [AnalysisResponse] model;
    - [app/api/v1/routes/play_bot.py]    the bot-status route;
    - [app/main.py]                      the application and its routers.

    Python objects are records, [str | None] is [option string], the process
    environment [os.environ] is a finite map from names to values, and code
    that reads module globals runs in a small state-and-exception monad over
    the [World] of the interpreter. *)

From Stdlib Require Import Floats.PrimFloat.
From stdpp Require Import base option strings list gmap.

Open Scope string_scope.

(** ** Python preliminaries *)

Module Py.

(** Exceptions the modelled code can raise.  The only one comes from
    [dataclasses]: writing or deleting an attribute of a frozen
    instance; it carries the name of the attribute. *)
Inductive exc : Type :=
| FrozenInstanceError (field : string).

(** [bool(x)] for [x : str | None]: [None] and the empty string are
    falsy, every other string is truthy. *)
Definition bool_ (x : option string) : bool :=
  match x with
  | None => false
  | Some s => negb (Nat.eqb (String.length s) 0)
  end.

(** [os.environ], and [os.getenv(key)] with its default [None]. *)
Abbreviation environ_t := (gmap string string).

Definition getenv (environ : environ_t) (key : string) : option string :=
  environ !! key.

End Py.

(** ** [app/core/config.py] *)

Module Config.

(** [class Settings]: one field, [stockfish_path: str | None]. *)
Record Settings : Type := mkSettings { stockfish_path : option string }.

(** [dataclasses.fields(Settings)], by name. *)
Definition Settings_fields : list string := [ "stockfish_path" ].

(** The decorator is [@dataclass(frozen=True)]. *)
Definition Settings_frozen : bool := true.

(** What executing the class body leaves behind: the default of the
    field is the value of [os.getenv("STOCKFISH_PATH")] at that moment,
    stored in the class. *)
Record SettingsClass : Type := mkSettingsClass
  { default_stockfish_path : option string }.

Definition Settings_class_body (environ : Py.environ_t) : SettingsClass :=
  {| default_stockfish_path := Py.getenv environ "STOCKFISH_PATH" |}.

(** The generated [__init__]: a keyword that is not passed takes the
    default stored in the class. *)
Definition Settings_init (cls : SettingsClass)
    (kw_stockfish_path : option (option string)) : Settings :=
  {| stockfish_path :=
       default (default_stockfish_path cls) kw_stockfish_path |}.

End Config.

(** ** The interpreter state and the monad of module-level code *)

(** What the modelled code can observe of the running process: the
    environment, the [Settings] class created when [app.core.config] was
    imported, and the module global [settings]. *)
Record World : Type := mkWorld
  { environ : Py.environ_t;
    Settings_cls : Config.SettingsClass;
    settings : Config.Settings }.

(** A computation returns a value or raises, and may change the world. *)
Definition M (A : Type) : Type := World -> (Py.exc + A) * World.

#[export] Instance M_ret : MRet M := fun A a w => (inr a, w).

#[export] Instance M_bind : MBind M := fun A B k m w =>
  match m w with
  | (inr a, w') => k a w'
  | (inl e, w') => (inl e, w')
  end.

Definition raise {A} (e : Py.exc) : M A := fun w => (inl e, w).

Definition read {A} (proj : World -> A) : M A := fun w => (inr (proj w), w).

Definition write (f : World -> World) : M unit := fun w => (inr tt, f w).

Definition result {A} (m : M A) (w : World) : Py.exc + A := fst (m w).

Definition after {A} (m : M A) (w : World) : World := snd (m w).

(** ** [dataclasses]: attribute writes on the global [settings]

    The [__setattr__] that [@dataclass] generates depends on its [frozen]
    argument.  With [frozen=True] every assignment to an attribute of an
    instance raises [FrozenInstanceError]; otherwise the assignment goes
    through.  Only [stockfish_path] is a field; with [frozen=False] another
    name would land in the instance dictionary, which no modelled code
    reads.  Writes that go around the class ([object.__setattr__]) are not
    modelled. *)

Definition store_stockfish_path (v : option string) (w : World) : World :=
  {| environ := environ w;
     Settings_cls := Settings_cls w;
     settings := {| Config.stockfish_path := v |} |}.

Definition dataclass_setattr (frozen : bool)
    (name : string) (v : option string) : M unit :=
  if frozen then raise (Py.FrozenInstanceError name)
  else if String.eqb name "stockfish_path" then write (store_stockfish_path v)
  else mret tt.

(** [settings.<name> = v]. *)
Definition Settings_setattr : string -> option string -> M unit :=
  dataclass_setattr Config.Settings_frozen.

(** [del settings.<name>]: the [__delattr__] of a frozen dataclass raises
    as well. *)
Definition Settings_delattr (name : string) : M unit :=
  raise (Py.FrozenInstanceError name).

(** [Settings(...)] called again later: the default is the one the class
    kept, the environment is not consulted. *)
Definition Settings_call (kw : option (option string)) : M Config.Settings :=
  cls ← read Settings_cls;
  mret (Config.Settings_init cls kw).

(** [os.environ[k] = v] and [os.environ.pop(k, None)]. *)
Definition environ_set (k v : string) : M unit :=
  write (fun w => {| environ := <[k := v]> (environ w);
                     Settings_cls := Settings_cls w;
                     settings := settings w |}).

Definition environ_del (k : string) : M unit :=
  write (fun w => {| environ := delete k (environ w);
                     Settings_cls := Settings_cls w;
                     settings := settings w |}).

(** Importing [app.core.config] in a process whose environment is [env]:
    the class body runs, then [settings = Settings()]. *)
Definition startup (env : Py.environ_t) : World :=
  let cls := Config.Settings_class_body env in
  {| environ := env;
     Settings_cls := cls;
     settings := Config.Settings_init cls None |}.

(** ** [app/services/stockfish/engine.py] *)

Module Engine.
Import Config.

(** [@dataclass class EngineStatus]: [ready: bool], [path: str | None]. *)
Record EngineStatus : Type := mkEngineStatus
  { ready : bool;
    path : option string }.

(** [get_engine_status()]: both arguments read the global [settings]. *)
Definition get_engine_status : M EngineStatus :=
  s1 ← read settings;
  s2 ← read settings;
  mret {| ready := Py.bool_ (stockfish_path s1);
         path := stockfish_path s2 |}.

End Engine.

(** ** [app/schemas/analysis.py] *)

Module Schemas.

(** The annotations that occur in the model. *)
Inductive annotation : Type :=
| TStr
| TFloat
| TOptional (a : annotation).

(** A declared field: name, annotation, and whether it has the default
    [None] (the only default that occurs). *)
Record field_info : Type := mkField
  { f_name : string;
    f_annotation : annotation;
    f_default_none : bool }.

(** [class AnalysisResponse(BaseModel)]: the two declared fields, and
    the set pydantic keeps of the names of the fields that were passed
    to the constructor ([model_fields_set]). *)
Record AnalysisResponse : Type := mkAnalysisResponse
  { best_move : option string;
    evaluation : option float;
    model_fields_set : gset string }.

(** [AnalysisResponse.model_fields], in declaration order. *)
Definition AnalysisResponse_model_fields : list field_info :=
  [ {| f_name := "best_move";
       f_annotation := TOptional TStr; f_default_none := true |};
    {| f_name := "evaluation";
       f_annotation := TOptional TFloat; f_default_none := true |} ].

(** The name of a keyword, if it was passed. *)
Definition passed {A} (name : string) (kw : option A) : gset string :=
  match kw with
  | Some _ => {[ name ]}
  | None => ∅
  end.

(** [AnalysisResponse(...)]: a keyword that is not passed takes the
    field's default, and a keyword that is passed, be it with the value
    [None], is recorded as set. *)
Definition AnalysisResponse_init
    (kw_best_move : option (option string))
    (kw_evaluation : option (option float)) : AnalysisResponse :=
  {| best_move := default None kw_best_move;
     evaluation := default None kw_evaluation;
     model_fields_set :=
       passed "best_move" kw_best_move ∪ passed "evaluation" kw_evaluation |}.

(** The values an instance holds, as a dictionary ([model_dump()] with
    its default arguments: every declared field, set or not). *)
Inductive value : Type :=
| VNone
| VStr (s : string)
| VFloat (x : float).

Definition model_dump (r : AnalysisResponse) : list (string * value) :=
  [ ("best_move", from_option VStr VNone (best_move r));
    ("evaluation", from_option VFloat VNone (evaluation r)) ].

End Schemas.

(** ** A fragment of FastAPI: routers and route registration *)

Module Fastapi.

(** A registered route: HTTP methods, path, the name of the endpoint
    function, tags. *)
Record Route : Type := mkRoute
  { methods : list string;
    route_path : string;
    name : string;
    tags : list string }.

(** [APIRouter()] holds its routes in registration order. *)
Record APIRouter : Type := mkAPIRouter { router_routes : list Route }.

Definition APIRouter_new : APIRouter := {| router_routes := [] |}.

(** [@router.get(path)] applied to the function called [fname]. *)
Definition get (router : APIRouter) (path fname : string) : APIRouter :=
  {| router_routes :=
       router_routes router ++
       [ {| methods := ["GET"]; route_path := path;
            name := fname; tags := [] |} ] |}.

(** The application object: title, version, and the routes in
    registration order. *)
Record FastAPI : Type := mkFastAPI
  { title : string;
    version : string;
    routes : list Route }.

(** The routes the constructor registers by itself when [openapi_url],
    [docs_url], [swagger_ui_oauth2_redirect_url] and [redoc_url] keep
    their defaults: the OpenAPI schema, the Swagger page, its OAuth2
    redirect page and the ReDoc page.  They are plain routes added with
    [add_route]: a GET route of that kind also answers HEAD, and it has no
    tags. *)
Definition documentation_routes : list Route :=
  [ {| methods := ["GET"; "HEAD"]; route_path := "/openapi.json";
       name := "openapi"; tags := [] |};
    {| methods := ["GET"; "HEAD"]; route_path := "/docs";
       name := "swagger_ui_html"; tags := [] |};
    {| methods := ["GET"; "HEAD"]; route_path := "/docs/oauth2-redirect";
       name := "swagger_ui_redirect"; tags := [] |};
    {| methods := ["GET"; "HEAD"]; route_path := "/redoc";
       name := "redoc_html"; tags := [] |} ].

(** [FastAPI(title=..., version=...)], every other argument at its
    default. *)
Definition FastAPI_new (title version : string) : FastAPI :=
  {| title := title; version := version; routes := documentation_routes |}.

(** [app.include_router(router, prefix=..., tags=...)]: every route of
    the router is added under [prefix + path], with the tags of the call
    put before the route's own. *)
Definition include_route (prefix : string) (tgs : list string)
    (r : Route) : Route :=
  {| methods := methods r;
     route_path := prefix +:+ route_path r;
     name := name r;
     tags := tgs ++ tags r |}.

Definition include_router (app : FastAPI) (router : APIRouter)
    (prefix : string) (tgs : list string) : FastAPI :=
  {| title := title app;
     version := version app;
     routes := routes app ++
               map (include_route prefix tgs) (router_routes router) |}.

End Fastapi.

(** ** [app/api/v1/routes/play_bot.py] *)

Module PlayBot.

(** [async def play_bot_status()]: the handler takes no argument and
    returns a dictionary literal. *)
Definition play_bot_status : M (gmap string string) :=
  mret {[ "status" := "ready" ]}.

(** [router = APIRouter()] with [@router.get("/status")]. *)
Definition router : Fastapi.APIRouter :=
  Fastapi.get Fastapi.APIRouter_new "/status" "play_bot_status".

End PlayBot.

(** ** [app/main.py] *)

Module Main.

Section WithHealthRouter.

(** The path and the function name of the health route: neither is
    stated in the sources or in the specification. *)
Variables (health_path health_name : string).

(** Modelled from the spec: [app/api/v1/routes/health.py] is imported
    by [main.py] but is not among the sources.  The specification
    describes it as the placeholder health-check endpoint, so its
    router is taken to register one GET route. *)
Definition health_router : Fastapi.APIRouter :=
  Fastapi.get Fastapi.APIRouter_new health_path health_name.

Definition app : Fastapi.FastAPI :=
  let app0 := Fastapi.FastAPI_new "chessOS API" "0.1.0" in
  let app1 := Fastapi.include_router app0 health_router
                "/api/v1" ["health"] in
  Fastapi.include_router app1 PlayBot.router
    "/api/v1/play-bot" ["play-bot"].

End WithHealthRouter.

End Main.

(** ** The operations of a running service

    After start-up the process answers requests and may run any of the
    modelled functions, in any order; code may also try to write to the
    [settings] object, build further [Settings] instances, or change the
    environment.  An operation that raises is caught by its caller and the
    process goes on. *)

Inductive op : Type :=
| GetEngineStatus
| PlayBotStatus
| NewAnalysisResponse (kw_best_move : option (option string))
                      (kw_evaluation : option (option float))
| NewSettings (kw_stockfish_path : option (option string))
| SetSettingsAttr (name : string) (v : option string)
| DelSettingsAttr (name : string)
| EnvironSet (k v : string)
| EnvironDel (k : string).

Inductive outcome : Type :=
| OEngineStatus (st : Engine.EngineStatus)
| ODict (d : gmap string string)
| OAnalysisResponse (r : Schemas.AnalysisResponse)
| OSettings (s : Config.Settings)
| ONone.

Definition exec (o : op) : M outcome :=
  match o with
  | GetEngineStatus => st ← Engine.get_engine_status; mret (OEngineStatus st)
  | PlayBotStatus => d ← PlayBot.play_bot_status; mret (ODict d)
  | NewAnalysisResponse bm ev =>
      mret (OAnalysisResponse (Schemas.AnalysisResponse_init bm ev))
  | NewSettings kw => s ← Settings_call kw; mret (OSettings s)
  | SetSettingsAttr name v => _ ← Settings_setattr name v; mret ONone
  | DelSettingsAttr name => _ ← Settings_delattr name; mret ONone
  | EnvironSet k v => _ ← environ_set k v; mret ONone
  | EnvironDel k => _ ← environ_del k; mret ONone
  end.

(** The world after a sequence of operations. *)
Fixpoint run (ops : list op) (w : World) : World :=
  match ops with
  | [] => w
  | o :: ops' => run ops' (after (exec o) w)
  end.

(** The results of a sequence of operations, one per operation. *)
Fixpoint trace (ops : list op) (w : World) : list (Py.exc + outcome) :=
  match ops with
  | [] => []
  | o :: ops' => result (exec o) w :: trace ops' (after (exec o) w)
  end.

(** The operations that write [os.environ]; the others are calls into the
    modelled modules. *)
Definition changes_environment (o : op) : bool :=
  match o with
  | EnvironSet _ _ | EnvironDel _ => true
  | _ => false
  end.

(** ** [app/main.py] over any health router

    [main.py] as written, with the router it imports from
    [app.api.v1.routes.health] left open: whatever routes that module
    registers, they are included first, under [/api/v1] and tagged
    [health]. *)
Definition app_with (health : Fastapi.APIRouter) : Fastapi.FastAPI :=
  let app0 := Fastapi.FastAPI_new "chessOS API" "0.1.0" in
  let app1 := Fastapi.include_router app0 health "/api/v1" ["health"] in
  Fastapi.include_router app1 PlayBot.router
    "/api/v1/play-bot" ["play-bot"].

(** Two environments used in the examples below. *)
Abbreviation stockfish_env :=
  ({[ "STOCKFISH_PATH" := "/usr/games/stockfish" ]} : gmap string string).

Abbreviation blank_env :=
  ({[ "STOCKFISH_PATH" := "" ]} : gmap string string).

(** * Properties *)

Import Config.

(** ** Worked examples *)

Example status_configured :
  result Engine.get_engine_status (startup stockfish_env)
  = inr {| Engine.ready := true;
           Engine.path := Some "/usr/games/stockfish" |}.
Proof. reflexivity. Qed.

Example status_unset :
  result Engine.get_engine_status (startup ∅)
  = inr {| Engine.ready := false; Engine.path := None |}.
Proof. reflexivity. Qed.

Example status_blank :
  result Engine.get_engine_status (startup blank_env)
  = inr {| Engine.ready := false; Engine.path := Some "" |}.
Proof. reflexivity. Qed.

Example trace_of_a_session :
  trace [ SetSettingsAttr "stockfish_path" (Some "/tmp/sf");
          EnvironSet "STOCKFISH_PATH" "/tmp/sf";
          NewSettings None;
          GetEngineStatus ] (startup ∅)
  = [ inl (Py.FrozenInstanceError "stockfish_path");
      inr ONone;
      inr (OSettings {| stockfish_path := None |});
      inr (OEngineStatus {| Engine.ready := false; Engine.path := None |}) ].
Proof. reflexivity. Qed.

(** ** Python truthiness of [str | None] *)

Lemma bool_true_iff (x : option string) :
  Py.bool_ x = true ↔ x ≠ None ∧ x ≠ Some "".
Proof.
  destruct x as [[|c s]|]; simpl; split; try done.
  - intros [_ H]. by contradict H.
  - intros [H _]. by contradict H.
Qed.

(** ** What an operation leaves unchanged *)

(** No operation rebinds [settings] or touches the stored class. *)
Lemma exec_preserves (o : op) (w : World) :
  settings (after (exec o) w) = settings w ∧
  Settings_cls (after (exec o) w) = Settings_cls w.
Proof. by destruct o. Qed.

Lemma run_preserves (ops : list op) (w : World) :
  settings (run ops w) = settings w ∧
  Settings_cls (run ops w) = Settings_cls w.
Proof.
  revert w. induction ops as [|o ops IH]; intros w; simpl; [done|].
  destruct (IH (after (exec o) w)) as [-> ->]. apply exec_preserves.
Qed.

(** The status depends on the world through [settings] only, and the
    call changes nothing. *)
Lemma get_engine_status_eq (w : World) :
  Engine.get_engine_status w
  = (inr {| Engine.ready := Py.bool_ (stockfish_path (settings w));
            Engine.path := stockfish_path (settings w) |}, w).
Proof. reflexivity. Qed.

(** It is the [frozen] flag that blocks the write: the same assignment on
    a dataclass that is not frozen goes through. *)
Lemma unfrozen_setattr_stores (v : option string) (w : World) :
  stockfish_path (settings (after (dataclass_setattr false "stockfish_path" v) w)) = v.
Proof. reflexivity. Qed.

(** With the variable unset the engine is reported as not ready, with no
    path. *)
Lemma get_engine_status_unset (env : gmap string string) :
  result Engine.get_engine_status (startup (delete "STOCKFISH_PATH" env))
  = inr {| Engine.ready := false; Engine.path := None |}.
Proof.
  unfold result. rewrite get_engine_status_eq. simpl.
  unfold Py.getenv. by rewrite lookup_delete_eq.
Qed.

(** ** The engine status *)

(** C1.  Whatever the configured [stockfish_path], [get_engine_status()]
    returns (it does not raise and changes nothing) an [EngineStatus] whose
    [ready] is true exactly when [settings.stockfish_path] is neither
    [None] nor the empty string, and whose [path] is
    [settings.stockfish_path]. *)
Theorem get_engine_status_ready_iff_nonempty (w : World) :
  ∃ st : Engine.EngineStatus,
    Engine.get_engine_status w = (inr st, w) ∧
    (Engine.ready st = true ↔
       stockfish_path (settings w) ≠ None ∧
       stockfish_path (settings w) ≠ Some "") ∧
    Engine.path st = stockfish_path (settings w).
Proof.
  eexists. split; [apply get_engine_status_eq|].
  split; [apply bool_true_iff|reflexivity].
Qed.

(** C10.  [get_engine_status] is deterministic: two calls made in worlds
    with the same [settings] value, whatever else differs, both return,
    and their results agree on [ready] and on [path]. *)
Theorem get_engine_status_deterministic (w1 w2 : World) :
  settings w1 = settings w2 →
  ∃ st1 st2 : Engine.EngineStatus,
    result Engine.get_engine_status w1 = inr st1 ∧
    result Engine.get_engine_status w2 = inr st2 ∧
    Engine.ready st1 = Engine.ready st2 ∧
    Engine.path st1 = Engine.path st2.
Proof.
  intros Hs. unfold result. rewrite !get_engine_status_eq. simpl.
  do 2 eexists. split; [reflexivity|]. split; [reflexivity|].
  simpl. by rewrite Hs.
Qed.

(** Two worlds with equal settings and different environments: the second
    is the first after the variable was removed and another one set. *)
Lemma get_engine_status_deterministic_witness :
  let w1 := startup stockfish_env in
  let w2 := run [EnvironDel "STOCKFISH_PATH"; EnvironSet "HOME" "/root"] w1 in
  environ w1 ≠ environ w2 ∧
  settings w1 = settings w2 ∧
  ∃ st1 st2 : Engine.EngineStatus,
    result Engine.get_engine_status w1 = inr st1 ∧
    result Engine.get_engine_status w2 = inr st2 ∧
    Engine.ready st1 = Engine.ready st2 ∧
    Engine.path st1 = Engine.path st2.
Proof.
  intros w1 w2. split; [|split].
  - intros H. apply (f_equal (lookup "HOME")) in H. discriminate H.
  - reflexivity.
  - apply (get_engine_status_deterministic w1 w2). reflexivity.
Defined.

(** ** Configuration *)

(** C4.  [Settings] has the single field [stockfish_path], which
    determines the whole object.  The global
    [settings] holds the value [os.getenv("STOCKFISH_PATH")] had when the
    module was imported, which is [None] when the variable is unset.  The
    variable is read once: after any later operations, changes of the
    environment included, [settings] and a fresh [Settings()] still hold
    the value read at start-up. *)
Theorem settings_read_once_at_startup
    (env : gmap string string) (ops : list op) :
  Settings_fields = ["stockfish_path"] ∧
  (∀ s1 s2 : Settings, stockfish_path s1 = stockfish_path s2 → s1 = s2) ∧
  stockfish_path (settings (startup env)) = Py.getenv env "STOCKFISH_PATH" ∧
  stockfish_path (settings (startup (delete "STOCKFISH_PATH" env))) = None ∧
  stockfish_path (settings (run ops (startup env)))
    = Py.getenv env "STOCKFISH_PATH" ∧
  result (Settings_call None) (run ops (startup env))
    = inr {| stockfish_path := Py.getenv env "STOCKFISH_PATH" |}.
Proof.
  destruct (run_preserves ops (startup env)) as [Hs Hc].
  split; [reflexivity|]. split; [by intros [p1] [p2]; simpl; intros ->|].
  repeat split.
  - simpl. unfold Py.getenv. apply lookup_delete_eq.
  - by rewrite Hs.
  - unfold result, Settings_call, read. simpl. by rewrite Hc.
Qed.

(** C9.  [settings] is immutable after start-up.  Starting from any
    world, after any sequence of operations the [settings] object is the
    one that was constructed; an assignment to any of its attributes
    raises [FrozenInstanceError] and changes nothing, and so does a
    deletion; [get_engine_status] still reports the constructed value. *)
Theorem settings_immutable
    (w0 : World) (ops : list op) (name : string) (v : option string) :
  settings (run ops w0) = settings w0 ∧
  Settings_setattr name v (run ops w0)
    = (inl (Py.FrozenInstanceError name), run ops w0) ∧
  Settings_delattr name (run ops w0)
    = (inl (Py.FrozenInstanceError name), run ops w0) ∧
  result Engine.get_engine_status (run ops w0)
    = inr {| Engine.ready := Py.bool_ (stockfish_path (settings w0));
             Engine.path := stockfish_path (settings w0) |}.
Proof.
  destruct (run_preserves ops w0) as [Hs _].
  repeat split. { exact Hs. }
  unfold result. rewrite get_engine_status_eq. simpl. by rewrite Hs.
Qed.

(** ** The analysis response *)

Import Schemas.

Lemma passed_elem {A} (name x : string) (kw : option A) :
  x ∈ passed name kw → x = name.
Proof.
  destruct kw; simpl; intros H.
  - by apply elem_of_singleton in H.
  - by apply elem_of_empty in H.
Qed.

(** Passing [None] for a field is not the same as leaving it out: the
    two instances hold the same values and differ in [model_fields_set]. *)
Example explicit_none_is_recorded :
  best_move (AnalysisResponse_init (Some None) None)
    = best_move (AnalysisResponse_init None None) ∧
  model_dump (AnalysisResponse_init (Some None) None)
    = model_dump (AnalysisResponse_init None None) ∧
  AnalysisResponse_init (Some None) None ≠ AnalysisResponse_init None None.
Proof.
  split; [reflexivity|]. split; [reflexivity|]. intros H.
  apply (f_equal (λ r, bool_decide ("best_move" ∈ model_fields_set r))) in H.
  vm_compute in H. discriminate H.
Qed.

Lemma model_dump_keys (r : AnalysisResponse) :
  (model_dump r).*1 = f_name <$> AnalysisResponse_model_fields.
Proof. reflexivity. Qed.

(** C5.  [AnalysisResponse] has an optional [best_move] (a string) and an
    optional [evaluation] (a float), both absent by default: a field
    whose keyword is not passed is [None] whatever the other one is, a
    field whose keyword is passed holds what was passed, and
    [AnalysisResponse()] has [best_move = None] and [evaluation = None]. *)
Theorem AnalysisResponse_defaults :
  best_move (AnalysisResponse_init None None) = None ∧
  evaluation (AnalysisResponse_init None None) = None ∧
  model_dump (AnalysisResponse_init None None)
    = [("best_move", VNone); ("evaluation", VNone)] ∧
  (∀ kw_evaluation, best_move (AnalysisResponse_init None kw_evaluation) = None) ∧
  (∀ kw_best_move, evaluation (AnalysisResponse_init kw_best_move None) = None) ∧
  (∀ (s : string) kw_evaluation,
     best_move (AnalysisResponse_init (Some (Some s)) kw_evaluation) = Some s) ∧
  (∀ (x : float) kw_best_move,
     evaluation (AnalysisResponse_init kw_best_move (Some (Some x))) = Some x) ∧
  Forall (λ d, f_default_none d = true ∧ ∃ a, f_annotation d = TOptional a)
         AnalysisResponse_model_fields.
Proof.
  repeat split; repeat constructor; eauto.
Qed.

(** C6, as stated, fails: the model declares no field besides [best_move]
    and [evaluation]. *)
Lemma AnalysisResponse_no_status_field :
  ¬ ∃ d : field_info,
      d ∈ AnalysisResponse_model_fields ∧
      f_name d ≠ "best_move" ∧ f_name d ≠ "evaluation".
Proof.
  intros (d & Hd & Hb & He). unfold AnalysisResponse_model_fields in Hd.
  apply elem_of_cons in Hd as [->|Hd]; [by apply Hb|].
  apply elem_of_cons in Hd as [->|Hd]; [by apply He|].
  by apply elem_of_nil in Hd.
Qed.

(** C6, amended.  The analysis response carries exactly the two fields
    [best_move] and [evaluation], in that order, both optional and [None]
    by default, and no completion-status field: no field is called
    [status], the dictionary of an instance has the two keys and no
    [status] key, and the constructor never records [status] as set. *)
Theorem AnalysisResponse_exactly_two_fields :
  f_name <$> AnalysisResponse_model_fields = ["best_move"; "evaluation"] ∧
  Forall (λ d, f_default_none d = true ∧ ∃ a, f_annotation d = TOptional a)
         AnalysisResponse_model_fields ∧
  best_move (AnalysisResponse_init None None) = None ∧
  evaluation (AnalysisResponse_init None None) = None ∧
  ("status" ∉ (f_name <$> AnalysisResponse_model_fields)) ∧
  (∀ r : AnalysisResponse, (model_dump r).*1 = ["best_move"; "evaluation"]) ∧
  (∀ r : AnalysisResponse, "status" ∉ (model_dump r).*1) ∧
  (∀ kw_best_move kw_evaluation,
     "status" ∉ model_fields_set
                  (AnalysisResponse_init kw_best_move kw_evaluation)).
Proof.
  assert (Hstatus : "status" ∉ ["best_move"; "evaluation"]).
  { intros H.
    apply elem_of_cons in H as [H|H]; [discriminate H|].
    apply elem_of_cons in H as [H|H]; [discriminate H|].
    by apply elem_of_nil in H. }
  split; [reflexivity|].
  split; [repeat constructor; eauto|].
  split; [reflexivity|]. split; [reflexivity|].
  split; [exact Hstatus|].
  split; [intros r; reflexivity|].
  split; [intros r; by rewrite model_dump_keys|].
  intros bm ev H. simpl in H.
  apply elem_of_union in H as [H|H]; apply passed_elem in H; discriminate H.
Qed.

(** ** Routes *)

(** C8.  In every world [play_bot_status()] returns the dictionary
    [{"status": "ready"}] and changes nothing; so it does in a process
    started without [STOCKFISH_PATH], and after any operations. *)
Theorem play_bot_status_always_ready
    (w : World) (env : gmap string string) (ops : list op) :
  PlayBot.play_bot_status w = (inr {[ "status" := "ready" ]}, w) ∧
  result PlayBot.play_bot_status
    (run ops (startup (delete "STOCKFISH_PATH" env)))
    = inr {[ "status" := "ready" ]} ∧
  stockfish_path (settings (run ops (startup (delete "STOCKFISH_PATH" env))))
    = None.
Proof.
  split; [reflexivity|]. split; [reflexivity|].
  destruct (run_preserves ops (startup (delete "STOCKFISH_PATH" env))) as [-> _].
  simpl. unfold Py.getenv. apply lookup_delete_eq.
Qed.

(** The routes of the application: the documentation routes of the
    constructor, the routes of the health router, the bot status. *)
Lemma app_with_routes (health : Fastapi.APIRouter) :
  Fastapi.routes (app_with health)
  = (Fastapi.documentation_routes
     ++ map (Fastapi.include_route "/api/v1" ["health"])
            (Fastapi.router_routes health)
     ++ [ {| Fastapi.methods := ["GET"];
             Fastapi.route_path := "/api/v1/play-bot/status";
             Fastapi.name := "play_bot_status";
             Fastapi.tags := ["play-bot"] |} ])%list.
Proof. reflexivity. Qed.



(** * Further properties of the code *)

(** ** Sequences of operations *)

Lemma run_app (ops1 ops2 : list op) (w : World) :
  run (ops1 ++ ops2) w = run ops2 (run ops1 w).
Proof.
  revert w. induction ops1 as [|o ops1 IH]; intros w; simpl; [done|apply IH].
Qed.

(** The result of an operation depends on the world through [settings]
    and the stored class only. *)
Lemma exec_result_settings (o : op) (w1 w2 : World) :
  settings w1 = settings w2 →
  Settings_cls w1 = Settings_cls w2 →
  result (exec o) w1 = result (exec o) w2.
Proof.
  intros Hs Hc. destruct o; try reflexivity; unfold result; simpl.
  - unfold mbind, M_bind, read, mret, M_ret. simpl. by rewrite Hs.
  - unfold mbind, M_bind, read, mret, M_ret. simpl. by rewrite Hc.
Qed.

Lemma exec_no_environment_write (o : op) (w : World) :
  changes_environment o = false → after (exec o) w = w.
Proof. by destruct o. Qed.

(** X1.  The answer to an operation does not depend on what the process
    did before: after any sequence of operations, environment writes and
    failed assignments included, every operation returns or raises
    exactly as it would have right after start-up. *)
Theorem results_independent_of_history (ops : list op) (o : op) (w : World) :
  result (exec o) (run ops w) = result (exec o) w.
Proof.
  destruct (run_preserves ops w) as [Hs Hc].
  by apply exec_result_settings.
Qed.

(** X2.  The modelled modules keep no state: a sequence of operations
    none of which writes [os.environ] leaves the world, the environment
    and [settings] included, exactly as it was. *)
Theorem service_is_stateless (ops : list op) (w : World) :
  Forall (λ o, changes_environment o = false) ops →
  run ops w = w.
Proof.
  induction 1 as [|o ops Ho _ IH]; simpl; [done|].
  by rewrite exec_no_environment_write.
Qed.

Lemma service_is_stateless_witness :
  Forall (λ o, changes_environment o = false)
    [ GetEngineStatus; SetSettingsAttr "stockfish_path" (Some "/tmp/sf");
      NewSettings (Some None); PlayBotStatus; DelSettingsAttr "stockfish_path";
      NewAnalysisResponse None None ] ∧
  run [ GetEngineStatus; SetSettingsAttr "stockfish_path" (Some "/tmp/sf");
        NewSettings (Some None); PlayBotStatus;
        DelSettingsAttr "stockfish_path";
        NewAnalysisResponse None None ] (startup stockfish_env)
  = startup stockfish_env.
Proof.
  split; [by repeat constructor|].
  apply service_is_stateless. by repeat constructor.
Defined.

(** ** From the environment to the engine status *)

(** X3.  The status a process reports, at any time, classifies the
    environment it was started in: [path] is [None] exactly when
    [STOCKFISH_PATH] was unset; [ready] is true exactly when it was set
    to a non-empty string; and it was set to the empty string exactly when
    the status is not ready with the empty path. *)
Theorem status_classifies_startup_environment
    (env : gmap string string) (ops : list op) :
  ∃ st : Engine.EngineStatus,
    result Engine.get_engine_status (run ops (startup env)) = inr st ∧
    (Engine.path st = None ↔ Py.getenv env "STOCKFISH_PATH" = None) ∧
    (Engine.ready st = true ↔
       ∃ p, Py.getenv env "STOCKFISH_PATH" = Some p ∧ p ≠ "") ∧
    (Engine.ready st = false ∧ Engine.path st = Some "" ↔
       Py.getenv env "STOCKFISH_PATH" = Some "").
Proof.
  destruct (run_preserves ops (startup env)) as [Hs _].
  eexists. split.
  { unfold result. rewrite get_engine_status_eq, Hs. reflexivity. }
  simpl. destruct (Py.getenv env "STOCKFISH_PATH") as [[|c p]|]; simpl.
  - repeat split; try done. by intros (p & [= <-] & ?).
  - repeat split; try done.
    + intros _. by eexists.
    + by intros [? ?].
  - repeat split; try done.
    + by intros (p & ? & _).
    + by intros [_ ?].
Qed.

(** X4.  A change of [STOCKFISH_PATH] after start-up does not reach the
    status.  Started without the variable, the process reports not ready
    and no path even once the variable has been set to [p]; started with
    it, the process goes on reporting [p] after the variable was
    removed. *)
Theorem status_ignores_later_environment
    (env : gmap string string) (ops : list op) (p : string) :
  (let w := run (ops ++ [EnvironSet "STOCKFISH_PATH" p])
                (startup (delete "STOCKFISH_PATH" env)) in
   Py.getenv (environ w) "STOCKFISH_PATH" = Some p ∧
   result Engine.get_engine_status w
     = inr {| Engine.ready := false; Engine.path := None |}) ∧
  (let w := run (ops ++ [EnvironDel "STOCKFISH_PATH"])
                (startup (<["STOCKFISH_PATH" := p]> env)) in
   Py.getenv (environ w) "STOCKFISH_PATH" = None ∧
   result Engine.get_engine_status w
     = inr {| Engine.ready := Py.bool_ (Some p); Engine.path := Some p |}).
Proof.
  split; intros w; subst w; rewrite run_app; simpl; unfold Py.getenv.
  - split; [apply lookup_insert_eq|].
    unfold result. rewrite get_engine_status_eq. simpl.
    destruct (run_preserves ops (startup (delete "STOCKFISH_PATH" env)))
      as [-> _].
    simpl. unfold Py.getenv. by rewrite lookup_delete_eq.
  - split; [apply lookup_delete_eq|].
    unfold result. rewrite get_engine_status_eq. simpl.
    destruct (run_preserves ops (startup (<["STOCKFISH_PATH" := p]> env)))
      as [-> _].
    simpl. unfold Py.getenv. by rewrite lookup_insert_eq.
Qed.

(** ** The route table, whatever the health module registers *)


Lemma lookup_map_Some {A B} (f : A → B) (l : list A) (i : nat) (y : B) :
  map f l !! i = Some y → ∃ x, l !! i = Some x ∧ y = f x.
Proof.
  revert i. induction l as [|x l IH]; intros [|i] H; simpl in *;
    try discriminate.
  - injection H as <-. by exists x.
  - by apply IH.
Qed.

(** [main.py] with the one-route health router is an instance. *)
Lemma app_is_app_with (health_path health_name : string) :
  Main.app health_path health_name
  = app_with (Main.health_router health_path health_name).
Proof. reflexivity. Qed.

Lemma documentation_route_lookup (i : nat) (r : Fastapi.Route) :
  Fastapi.documentation_routes !! i = Some r →
  i < 4 ∧
  Fastapi.route_path r
    ∈ [ "/openapi.json"; "/docs"; "/docs/oauth2-redirect"; "/redoc" ].
Proof.
  intros H. split; [by apply lookup_lt_Some in H|].
  do 4 (destruct i as [|i];
        [injection H as <-; simpl; by repeat constructor|]).
  discriminate H.
Qed.


(** X6.  If the health router has no route at [/play-bot/status], the
    path [/api/v1/play-bot/status] is registered once: the only route
    with that path is the last one, after the four documentation routes
    and the routes of the health router, and it is the GET route of
    [play_bot_status]. *)
Theorem bot_status_route_unique
    (health : Fastapi.APIRouter) (i : nat) (r : Fastapi.Route) :
  (∀ h, h ∈ Fastapi.router_routes health →
        Fastapi.route_path h ≠ "/play-bot/status") →
  Fastapi.routes (app_with health) !! i = Some r →
  Fastapi.route_path r = "/api/v1/play-bot/status" →
  i = 4 + length (Fastapi.router_routes health) ∧
  S i = length (Fastapi.routes (app_with health)) ∧
  Fastapi.methods r = ["GET"] ∧
  Fastapi.name r = "play_bot_status" ∧
  Fastapi.tags r = ["play-bot"].
Proof.
  intros Hfree Hi Hp.
  assert (Hlast : length (Fastapi.routes (app_with health))
                  = 5 + length (Fastapi.router_routes health)).
  { rewrite app_with_routes, !length_app, length_map. simpl. lia. }
  rewrite Hlast. rewrite app_with_routes in Hi.
  apply lookup_app_Some in Hi as [Hi|[Hlen Hi]].
  { apply documentation_route_lookup in Hi as [_ Hr]. exfalso.
    rewrite Hp in Hr.
    repeat (apply elem_of_cons in Hr as [Hr|Hr]; [discriminate Hr|]).
    by apply elem_of_nil in Hr. }
  simpl in Hlen, Hi.
  apply lookup_app_Some in Hi as [Hi|[Hlen' Hi]].
  - apply lookup_map_Some in Hi as (h & Hh & ->).
    simpl in Hp. injection Hp as Hp.
    exfalso. eapply Hfree; [|exact Hp].
    by eapply list_elem_of_lookup_2.
  - rewrite length_map in Hlen', Hi.
    destruct (i - 4 - length (Fastapi.router_routes health)) as [|k] eqn:Hk;
      simpl in Hi; [|discriminate Hi].
    injection Hi as <-. repeat split; lia.
Qed.

Lemma bot_status_route_unique_witness :
  (∀ h, h ∈ Fastapi.router_routes (Main.health_router "/health" "health") →
        Fastapi.route_path h ≠ "/play-bot/status") ∧
  Fastapi.routes (app_with (Main.health_router "/health" "health")) !! 5
    = Some {| Fastapi.methods := ["GET"];
              Fastapi.route_path := "/api/v1/play-bot/status";
              Fastapi.name := "play_bot_status";
              Fastapi.tags := ["play-bot"] |} ∧
  5 = 4 + length (Fastapi.router_routes
                    (Main.health_router "/health" "health")) ∧
  6 = length (Fastapi.routes
                (app_with (Main.health_router "/health" "health"))) ∧
  ["GET"] = ["GET"] ∧
  "play_bot_status" = "play_bot_status" ∧
  ["play-bot"] = ["play-bot"].
Proof.
  assert (Hfree : ∀ h,
    h ∈ Fastapi.router_routes (Main.health_router "/health" "health") →
    Fastapi.route_path h ≠ "/play-bot/status").
  { intros h Hh. apply list_elem_of_singleton in Hh as ->. discriminate. }
  split; [exact Hfree|]. split; [reflexivity|].
  exact (bot_status_route_unique
           (Main.health_router "/health" "health") 5 _
           Hfree eq_refl eq_refl).
Defined.
